(** * zip_filebot: the Playwright fetcher and its verification classifier

    A shallow embedding of the JavaScript sources of the repository:

    - [isVerificationText], [normalizeTarget], [fetchWithPlaywright] and
      the route [/api/fetch.js] of the captcha-aware server;
    - the route [/index] of [server.js];
    - the route [/] of the CommonJS variant of the server.

    JavaScript values are a small inductive type, exceptions are an
    explicit [Thrown] result, and the browser (Playwright) is a parameter
    of the handlers. *)

From Stdlib Require Import ZArith Ascii String List Bool Lia.
From stdpp Require Import base option gmap strings.

Local Open Scope string_scope.
Local Open Scope Z_scope.

(** ** Strings

    A JavaScript string is modelled by a [string] whose characters are
    the code units U+0000 to U+00FF (Basic Latin and Latin-1
    Supplement). *)

Module JsString.

(** [String.prototype.toLowerCase] on one code unit: the upper-case
    letters below U+0100 are A to Z, U+00C0 to U+00D6 and U+00D8 to
    U+00DE, each 32 below its lower-case letter. *)
Definition is_upper (n : N) : bool :=
  ((65 <=? n) && (n <=? 90) || (192 <=? n) && (n <=? 214)
   || (216 <=? n) && (n <=? 222))%N.

Definition lower_char (c : ascii) : ascii :=
  let n := N_of_ascii c in
  if is_upper n then ascii_of_N (n + 32) else c.

Fixpoint toLowerCase (s : string) : string :=
  match s with
  | EmptyString => EmptyString
  | String c s' => String (lower_char c) (toLowerCase s')
  end.

(** [s.startsWith(p)]. *)
Fixpoint startsWith (s p : string) : bool :=
  match p, s with
  | EmptyString, _ => true
  | String _ _, EmptyString => false
  | String a p', String b s' => Ascii.eqb a b && startsWith s' p'
  end.

(** [s.includes(p)]: [p] occurs in [s] at some position. *)
Fixpoint includes (s p : string) : bool :=
  startsWith s p ||
  match s with
  | EmptyString => false
  | String _ s' => includes s' p
  end.

Definition is_empty (s : string) : bool :=
  match s with EmptyString => true | String _ _ => false end.

End JsString.

Import JsString.

(** ** Values and exceptions *)

(** The JavaScript values the classifier can be handed: the primitives
    and objects whose properties hold such values. Numbers are the
    integer-valued ones. *)
#[warning="-register-all"]
Inductive JsVal : Type :=
| JUndefined
| JNull
| JBool (b : bool)
| JNum (n : Z)
| JStr (s : string)
| JObj (props : gmap string JsVal).

(** The outcome of running a piece of code: a value, or a thrown
    exception with its message. *)
Inductive Outcome (A : Type) : Type :=
| Returned (a : A)
| Thrown (err : string).

Arguments Returned {A} a.
Arguments Thrown {A} err.

Definition bind {A B : Type} (o : Outcome A) (k : A -> Outcome B) : Outcome B :=
  match o with
  | Returned a => k a
  | Thrown e => Thrown e
  end.

Notation "'let!' x ':=' c1 'in' c2" := (bind c1 (fun x => c2))
  (at level 10, x name, c1 at level 100, c2 at level 200).

Definition TypeError : string := "TypeError".

(** ToBoolean. *)
Definition truthy (v : JsVal) : bool :=
  match v with
  | JUndefined | JNull => false
  | JBool b => b
  | JNum n => negb (n =? 0)
  | JStr s => negb (is_empty s)
  | JObj _ => true
  end.

(** [a || b]. *)
Definition js_or (a b : JsVal) : JsVal := if truthy a then a else b.

(** [v.toLowerCase()]: only a string has the method. *)
Definition call_toLowerCase (v : JsVal) : Outcome string :=
  match v with
  | JStr s => Returned (toLowerCase s)
  | _ => Thrown TypeError
  end.

(** [o[k]] for a header name [k]: reading a property of undefined or
    null throws, a primitive has no property of such a name. *)
Definition get (o : JsVal) (k : string) : Outcome JsVal :=
  match o with
  | JUndefined | JNull => Thrown TypeError
  | JObj props => Returned (default JUndefined (props !! k))
  | _ => Returned JUndefined
  end.

(** [v === n] for a number literal [n]. *)
Definition strict_eq_num (v : JsVal) (n : Z) : bool :=
  match v with
  | JNum m => m =? n
  | _ => false
  end.

(** ** The verification classifier *)

Definition patterns : list string :=
  [ "attention required";
    "checking your browser";
    "verify you are human";
    "cf-browser-verification";
    "please enable javascript and cookies";
    "captcha";
    "are you a human";
    "hcaptcha";
    "recaptcha";
    "cloudflare" ].

(** [for (const p of patterns) if (sample.includes(p)) return true;]:
    [true] when the loop returns, [false] when it runs to its end. *)
Fixpoint pattern_loop (sample : string) (ps : list string) : bool :=
  match ps with
  | [] => false
  | p :: ps' => if includes sample p then true else pattern_loop sample ps'
  end.

Definition isVerificationText (text status headers : JsVal) : Outcome bool :=
  let! sample := call_toLowerCase (js_or text (JStr "")) in
  if strict_eq_num status 403 || strict_eq_num status 503 then Returned true
  else if pattern_loop sample patterns then Returned true
  else
    let! sv := get headers "server" in
    let! server := call_toLowerCase (js_or sv (JStr "")) in
    if includes server "cloudflare" then Returned true
    else
      let! ray := get headers "cf-ray" in
      let! hint := (if truthy ray then Returned ray
                    else get headers "cf-chl-bypass") in
      if truthy hint then Returned true
      else Returned false.

(** *** Well-typed arguments

    The caller hands the classifier a text sample that is a string, a
    status that is a number or [null], and the header mapping of the
    response, whose values are strings. *)

Definition of_text (t : option string) : JsVal :=
  match t with Some s => JStr s | None => JUndefined end.

Definition of_status (st : option Z) : JsVal :=
  match st with Some n => JNum n | None => JNull end.

Definition of_headers (h : gmap string string) : JsVal := JObj (JStr <$> h).

(** The four conditions, as the code evaluates them. *)

Definition status_blocked (st : option Z) : bool :=
  match st with
  | Some n => (n =? 403) || (n =? 503)
  | None => false
  end.

Definition text_matches (t : option string) : bool :=
  existsb (includes (toLowerCase (default "" t))) patterns.

Definition server_is_cloudflare (h : gmap string string) : bool :=
  match h !! "server" with
  | Some v => includes (toLowerCase v) "cloudflare"
  | None => false
  end.

Definition header_nonempty (h : gmap string string) (k : string) : bool :=
  match h !! k with
  | Some v => negb (is_empty v)
  | None => false
  end.

Definition header_present (h : gmap string string) (k : string) : bool :=
  match h !! k with
  | Some _ => true
  | None => false
  end.

(** The verdict as the specification words it: the disjunction of the
    status condition, the text condition, the server condition and the
    presence of a [cf-ray] or [cf-chl-bypass] header. *)
Definition verdict_spec (t : option string) (st : option Z)
    (h : gmap string string) : bool :=
  status_blocked st || text_matches t || server_is_cloudflare h
  || (header_present h "cf-ray" || header_present h "cf-chl-bypass").

(** The same disjunction with the last condition read as the code tests
    it: the header has a non-empty value. *)
Definition verdict_disjunction (t : option string) (st : option Z)
    (h : gmap string string) : bool :=
  status_blocked st || text_matches t || server_is_cloudflare h
  || (header_nonempty h "cf-ray" || header_nonempty h "cf-chl-bypass").

(** ** Fetching a page *)

(** What the browser hands back after a navigation: the response (absent
    when [page.goto] resolves to null) with its status and headers, the
    rendered HTML, the inner text of the body and the screenshot in
    base64. *)
Record Page : Type := {
  page_response : option (Z * gmap string string);
  page_content : string;
  page_bodyText : string;
  page_screenshot : string
}.

Record FetchResult : Type := {
  ok : bool;
  verification_required : bool;
  status : JsVal;
  headers : JsVal;
  html : string;
  textSample : string;
  screenshot : string
}.

(** [s.slice(0, n)]. *)
Definition slice0 (s : string) (n : Z) : string := substring 0 (Z.to_nat n) s.

(** [browse target] stands for the launch of the browser, the
    navigation to [target] and the reads from the page; any of them may
    throw, and the [catch] block rethrows. *)
Definition fetchWithPlaywright (browse : string -> Outcome Page)
    (target : string) : Outcome FetchResult :=
  let! page := browse target in
  let status :=
    match page_response page with
    | Some (st, _) => JNum st
    | None => JNull
    end in
  let headers :=
    match page_response page with
    | Some (_, raw) => of_headers raw
    | None => JObj ∅
    end in
  let html := page_content page in
  let textSample := slice0 (page_bodyText page) 10000 in
  let! isVerification := isVerificationText (JStr textSample) status headers in
  Returned {| ok := negb isVerification;
              verification_required := negb (negb isVerification);
              status := status;
              headers := headers;
              html := html;
              textSample := textSample;
              screenshot := page_screenshot page |}.

(** ** The routes *)

(** A parsed URL, as far as the server looks at it. *)
Record URL : Type := { protocol : string; href : string }.

(** [new URL(raw)] is [parseURL raw], [None] when the constructor
    throws. The test [/^https?:$/] accepts the two protocols below. *)
Definition normalizeTarget (parseURL : string -> option URL)
    (raw : string) : option string :=
  match parseURL raw with
  | Some u =>
      if negb (String.eqb (protocol u) "http:" || String.eqb (protocol u) "https:")
      then None
      else Some (href u)
  | None => None
  end.

Inductive Body : Type :=
| SendText (s : string)
| SendHtml (s : string)
| JsonError (error : string)
| JsonVerification (message url screenshot_base64 : string)
| JsonPage (status headers : JsVal) (html textSample : string).

(** A response: the status code, 200 unless [res.status] sets it, and
    what was sent. *)
Record Response : Type := { code : Z; body : Body }.

(** The collaborators of the handlers: the URL parser, the plain render
    of the two HTML routes (launch, goto, wait, content, close) and the
    navigation of [fetchWithPlaywright]. *)
Record Env : Type := {
  parseURL : string -> option URL;
  render : string -> Outcome string;
  browse : string -> Outcome Page
}.

(** [req.query.url]: absent or a string. *)
Definition ToString (q : option string) : string := default "undefined" q.

Definition verification_message : string :=
  "This site appears to require a browser verification (e.g., CAPTCHA/human check). Open the site in a normal browser and complete verification, then try again.".

(** [app.get("/index")] of server.js. *)
Definition route_index (E : Env) (q : option string) : Response :=
  if negb (truthy (of_text q))
  then {| code := 400; body := SendText "Missing ?url parameter" |}
  else
    match render E (ToString q) with
    | Returned html => {| code := 200; body := SendHtml html |}
    | Thrown err => {| code := 500; body := SendText err |}
    end.

(** [app.get("/api/fetch.js")]. *)
Definition route_api_fetch (E : Env) (q : option string) : Response :=
  match normalizeTarget (parseURL E) (ToString q) with
  | None => {| code := 400; body := JsonError "Invalid or missing url" |}
  | Some target =>
      if is_empty target
      then {| code := 400; body := JsonError "Invalid or missing url" |}
      else
        match fetchWithPlaywright (browse E) target with
        | Returned result =>
            if verification_required result
            then {| code := 200;
                    body := JsonVerification verification_message target
                              (screenshot result) |}
            else {| code := 200;
                    body := JsonPage (status result) (headers result)
                              (html result) (textSample result) |}
        | Thrown err => {| code := 500; body := JsonError err |}
        end
  end.

(** [app.get("/")] of the CommonJS variant. *)
Definition route_root (E : Env) (q : option string) : Response :=
  if negb (truthy (of_text q))
  then {| code := 200; body := SendText "Missing ?url parameter" |}
  else
    match render E (ToString q) with
    | Returned html => {| code := 200; body := SendHtml html |}
    | Thrown err => {| code := 500; body := SendText err |}
    end.

Inductive Route : Type := RouteIndex | RouteApiFetch | RouteRoot.

Definition handle (E : Env) (r : Route) (q : option string) : Response :=
  match r with
  | RouteIndex => route_index E q
  | RouteApiFetch => route_api_fetch E q
  | RouteRoot => route_root E q
  end.

(** The URL is malformed when the constructor rejects it or its
    protocol is neither http nor https. *)
Definition malformed (E : Env) (raw : string) : Prop :=
  match parseURL E raw with
  | Some u => protocol u ≠ "http:" ∧ protocol u ≠ "https:"
  | None => True
  end.

Definition missing (q : option string) : Prop := q = None.

(** A small URL parser for the examples: it knows three schemes and
    rejects every other string, as the constructor rejects a string
    without a scheme. *)
Definition example_parseURL (raw : string) : option URL :=
  if startsWith raw "https://" then Some {| protocol := "https:"; href := raw |}
  else if startsWith raw "http://" then Some {| protocol := "http:"; href := raw |}
  else if startsWith raw "ftp://" then Some {| protocol := "ftp:"; href := raw |}
  else None.

Definition example_page : Page :=
  {| page_response := Some (200, {[ "server" := "nginx" ]});
     page_content := "<html><body>Welcome to our site</body></html>";
     page_bodyText := "Welcome to our site";
     page_screenshot := "iVBORw0KGgo=" |}.

(** A browser that reaches the hosts of http and https URLs and fails
    on everything else. *)
Definition example_env : Env :=
  {| parseURL := example_parseURL;
     render := fun target =>
       if startsWith target "http" then Returned (page_content example_page)
       else Thrown "Error: page.goto: Protocol error (Page.navigate): Cannot navigate to invalid URL";
     browse := fun target =>
       if startsWith target "http" then Returned example_page
       else Thrown "Error: page.goto: net::ERR_ABORTED" |}.

(** ** Notions used by the further properties *)

(** A value on which [(v || "").toLowerCase()] is defined: a string, or
    a falsy value, which [||] replaces by the empty string. *)
Definition string_or_falsy (v : JsVal) : bool :=
  match v with
  | JStr _ => true
  | _ => negb (truthy v)
  end.

(** The status and the headers [fetchWithPlaywright] reads off the
    response: [null] and the empty object when there is none. *)
Definition response_status (page : Page) : JsVal :=
  match page_response page with
  | Some (st, _) => JNum st
  | None => JNull
  end.

Definition response_headers (page : Page) : JsVal :=
  match page_response page with
  | Some (_, raw) => of_headers raw
  | None => JObj ∅
  end.


(** The patterns without [hcaptcha] and [recaptcha]. *)
Definition patterns_without_captcha_variants : list string :=
  [ "attention required";
    "checking your browser";
    "verify you are human";
    "cf-browser-verification";
    "please enable javascript and cookies";
    "captcha";
    "are you a human";
    "cloudflare" ].


(** A page answered with 403 whose text and headers show nothing. *)
Definition example_blocked_page : Page :=
  {| page_response := Some (403, {[ "server" := "nginx" ]});
     page_content := "<html><body>Forbidden</body></html>";
     page_bodyText := "Forbidden";
     page_screenshot := "iVBORw0KGgo=" |}.

Definition example_blocked_env : Env :=
  {| parseURL := example_parseURL;
     render := fun _ => Returned (page_content example_blocked_page);
     browse := fun _ => Returned example_blocked_page |}.


(** ** Strings: lower-casing and search *)

Section StringFacts.

Implicit Types s p u a b : string.

Lemma append_cons c s u : String c s +:+ u = String c (s +:+ u).
Proof. reflexivity. Qed.

Lemma append_empty u : "" +:+ u = u.
Proof. reflexivity. Qed.

Lemma toLowerCase_app s u :
  toLowerCase (s +:+ u) = toLowerCase s +:+ toLowerCase u.
Proof.
  induction s as [|c s IH]; [reflexivity|].
  rewrite append_cons. simpl. now rewrite IH, append_cons.
Qed.

Lemma startsWith_empty s : startsWith s "" = true.
Proof. now destruct s. Qed.

Lemma startsWith_iff s p : startsWith s p = true ↔ ∃ b, s = p +:+ b.
Proof.
  revert s. induction p as [|c p IH]; intros s.
  - rewrite startsWith_empty. split; [eauto|done].
  - destruct s as [|d s]; cbn.
    + split; [done|]. intros [b Hb]. discriminate.
    + rewrite andb_true_iff, IH, Ascii.eqb_eq. split.
      * intros [-> [b ->]]. eauto.
      * intros [b Hb]. injection Hb as -> ->. eauto.
Qed.

Lemma includes_unfold s p :
  includes s p =
  startsWith s p || match s with "" => false | String _ s' => includes s' p end.
Proof. now destruct s. Qed.

(** [includes] is substring search: [p] occurs in [s] exactly when [s]
    splits around a copy of [p]. *)
Lemma includes_iff s p : includes s p = true ↔ ∃ a b, s = a +:+ p +:+ b.
Proof.
  induction s as [|c s IH]; rewrite includes_unfold, orb_true_iff, startsWith_iff.
  - split.
    + intros [[b Hb]|?]; [|done]. exists "", b. done.
    + intros (a & b & H). left. destruct a; [eauto|discriminate].
  - rewrite IH. split.
    + intros [[b Hb]|(a & b & ->)]; [exists "", b; done|].
      exists (String c a), b. done.
    + intros (a & b & H). destruct a as [|d a]; [left; eauto|].
      right. injection H as -> ->. eauto.
Qed.

Lemma app_assoc_string a b u : (a +:+ b) +:+ u = a +:+ b +:+ u.
Proof.
  induction a as [|c a IH]; [reflexivity|]. now rewrite !append_cons, IH.
Qed.

Lemma includes_app_r s u p :
  includes s p = true → includes (s +:+ u) p = true.
Proof.
  rewrite !includes_iff. intros (a & b & ->).
  exists a, (b +:+ u). now rewrite !app_assoc_string.
Qed.

Lemma includes_app_l s u p :
  includes s p = true → includes (u +:+ s) p = true.
Proof.
  rewrite !includes_iff. intros (a & b & ->).
  exists (u +:+ a), b. now rewrite !app_assoc_string.
Qed.

Lemma pattern_loop_existsb s ps : pattern_loop s ps = existsb (includes s) ps.
Proof.
  induction ps as [|p ps IH]; cbn; [done|]. rewrite IH. now destruct (includes s p).
Qed.

Lemma pattern_loop_true s ps :
  pattern_loop s ps = true ↔ ∃ p, In p ps ∧ includes s p = true.
Proof. rewrite pattern_loop_existsb. apply existsb_exists. Qed.

Lemma pattern_loop_false s ps :
  pattern_loop s ps = false ↔ ∀ p, In p ps → includes s p = false.
Proof.
  rewrite <- not_true_iff_false, pattern_loop_true. split.
  - intros H p Hp. apply not_true_iff_false. intros Hi. apply H; eauto.
  - intros H (p & Hp & Hi). rewrite (H p Hp) in Hi. discriminate.
Qed.

(** A mixed-case occurrence inside a longer text is found after
    lower-casing. *)
Lemma includes_lower_embedded a w b p :
  toLowerCase w = p → includes (toLowerCase (a +:+ w +:+ b)) p = true.
Proof.
  intros <-. rewrite !toLowerCase_app. apply includes_iff. eauto.
Qed.

End StringFacts.

(** ** The classifier on well-typed arguments *)

Section Classifier.

Implicit Types (t : option string) (h : gmap string string).
Implicit Types (status headers : JsVal).

Lemma lower_text t :
  call_toLowerCase (js_or (of_text t) (JStr "")) =
  Returned (toLowerCase (default "" t)).
Proof. destruct t as [[|c s]|]; reflexivity. Qed.

Lemma lower_str s :
  call_toLowerCase (js_or (JStr s) (JStr "")) = Returned (toLowerCase s).
Proof. exact (lower_text (Some s)). Qed.

Lemma get_of_headers h k : get (of_headers h) k = Returned (of_text (h !! k)).
Proof.
  unfold get, of_headers. rewrite lookup_fmap. now destruct (h !! k).
Qed.

Lemma truthy_of_header h k : truthy (of_text (h !! k)) = header_nonempty h k.
Proof. unfold header_nonempty. now destruct (h !! k). Qed.

Lemma server_lowered h :
  includes (toLowerCase (default "" (h !! "server"))) "cloudflare" =
  server_is_cloudflare h.
Proof. unfold server_is_cloudflare. now destruct (h !! "server"). Qed.

(** [null] and [undefined] for the text are one and the same to the
    classifier. *)
Lemma isVerificationText_null status headers :
  isVerificationText JNull status headers =
  isVerificationText JUndefined status headers.
Proof. reflexivity. Qed.

(** On a text that is a string or absent and a mapping of strings the
    classifier returns, and its verdict is the disjunction of the four
    tests of the code. *)
Lemma isVerificationText_typed t status h :
  isVerificationText (of_text t) status (of_headers h) =
  Returned (strict_eq_num status 403 || strict_eq_num status 503
            || text_matches t || server_is_cloudflare h
            || (header_nonempty h "cf-ray" || header_nonempty h "cf-chl-bypass")).
Proof.
  unfold isVerificationText. rewrite lower_text. cbn [bind].
  destruct (strict_eq_num status 403 || strict_eq_num status 503);
    [reflexivity|].
  rewrite pattern_loop_existsb. fold (text_matches t).
  destruct (text_matches t); [reflexivity|].
  rewrite !get_of_headers. cbn [bind].
  rewrite lower_text. cbn [bind]. rewrite server_lowered.
  destruct (server_is_cloudflare h); [reflexivity|].
  rewrite <- !truthy_of_header.
  destruct (truthy (of_text (h !! "cf-ray"))) eqn:Hray; cbn [bind].
  - now rewrite Hray.
  - now destruct (truthy (of_text (h !! "cf-chl-bypass"))).
Qed.

Lemma isVerificationText_typed_str (s : string) status h :
  isVerificationText (JStr s) status (of_headers h) =
  Returned (strict_eq_num status 403 || strict_eq_num status 503
            || text_matches (Some s) || server_is_cloudflare h
            || (header_nonempty h "cf-ray" || header_nonempty h "cf-chl-bypass")).
Proof. exact (isVerificationText_typed (Some s) status h). Qed.

(** [let headers = {}] is the empty mapping. *)
Lemma of_headers_empty : of_headers ∅ = JObj ∅.
Proof. unfold of_headers. now rewrite fmap_empty. Qed.

Lemma strict_eq_num_of_status st :
  strict_eq_num (of_status st) 403 || strict_eq_num (of_status st) 503 =
  status_blocked st.
Proof. now destruct st. Qed.

Lemma strict_eq_num_true status n :
  strict_eq_num status n = true ↔ status = JNum n.
Proof.
  destruct status; cbn; try (split; [discriminate|congruence]).
  rewrite Z.eqb_eq. split; congruence.
Qed.

(** The loop over the patterns returns before the headers are read. *)
Lemma pattern_hit_flagged (text : string) status headers :
  pattern_loop (toLowerCase text) patterns = true →
  isVerificationText (JStr text) status headers = Returned true.
Proof.
  intros Hloop. unfold isVerificationText. rewrite lower_str. cbn [bind].
  rewrite Hloop.
  now destruct (strict_eq_num status 403 || strict_eq_num status 503).
Qed.

End Classifier.

(** The examples of the specification. *)

Example example_1 :
  isVerificationText (JStr "Welcome to our site") (JNum 200) (of_headers ∅) =
  Returned false.
Proof. vm_compute. reflexivity. Qed.

Example example_2 :
  isVerificationText (JStr "") (JNum 503) (of_headers ∅) = Returned true.
Proof. vm_compute. reflexivity. Qed.

Example example_3 :
  isVerificationText (JStr "Please complete the captcha to continue")
    (JNum 200) (of_headers ∅) = Returned true.
Proof. vm_compute. reflexivity. Qed.

Example example_4 :
  isVerificationText (JStr "hello") (JNum 200)
    (of_headers {[ "server" := "cloudflare" ]}) = Returned true.
Proof. vm_compute. reflexivity. Qed.

Example example_5 :
  isVerificationText (JStr "hello") (JNum 200)
    (of_headers {[ "cf-ray" := "abc123" ]}) = Returned true.
Proof. vm_compute. reflexivity. Qed.

(** ** Header hints *)

(** C1, as the specification states it, fails: a [cf-ray] header that is
    present with the empty string as its value does not make the
    classifier answer true. The test of the code is the truthiness of
    the value. *)
Lemma cf_ray_empty_not_flagged :
  is_Some (({[ "cf-ray" := "" ]} : gmap string string) !! "cf-ray") ∧
  isVerificationText (JStr "hello") (JNum 200)
    (of_headers {[ "cf-ray" := "" ]}) = Returned false.
Proof.
  split; [rewrite lookup_singleton_eq; eauto|]. vm_compute. reflexivity.
Qed.

(** C1, amended: when the header [cf-ray] or the header [cf-chl-bypass]
    is present with a non-empty value, the classifier returns true, for
    every text (a string or absent) and every status. *)
Theorem cf_header_nonempty_flagged (t : option string) (status : JsVal)
    (h : gmap string string) (v : string) :
  h !! "cf-ray" = Some v ∨ h !! "cf-chl-bypass" = Some v →
  v ≠ "" →
  isVerificationText (of_text t) status (of_headers h) = Returned true.
Proof.
  intros Hk Hv. rewrite isVerificationText_typed. f_equal.
  assert (negb (is_empty v) = true) as Hne by now destruct v.
  unfold header_nonempty.
  destruct Hk as [-> | ->]; rewrite Hne; now rewrite ?orb_true_r.
Qed.

Lemma cf_header_nonempty_flagged_witness :
  isVerificationText (of_text (Some "hello")) (JNum 200)
    (of_headers {[ "cf-chl-bypass" := "1" ]}) = Returned true.
Proof.
  apply (cf_header_nonempty_flagged (Some "hello") (JNum 200)
           {[ "cf-chl-bypass" := "1" ]} "1").
  - right. vm_compute. reflexivity.
  - discriminate.
Defined.

(** C2, as the specification states it, fails: the key is looked up as
    it is, so a header stored under [Server] is not seen. *)
Lemma server_key_case_sensitive :
  toLowerCase "Server" = "server" ∧
  ({[ "Server" := "cloudflare" ]} : gmap string string) !! "Server" =
    Some "cloudflare" ∧
  includes (toLowerCase "cloudflare") "cloudflare" = true ∧
  isVerificationText (JStr "hello") (JNum 200)
    (of_headers {[ "Server" := "cloudflare" ]}) = Returned false.
Proof.
  split; [reflexivity|]. split; [apply lookup_singleton_eq|].
  split; vm_compute; reflexivity.
Qed.

(** C2, amended: when the mapping has the key [server], in lower case,
    and its value contains [cloudflare] in any letter case, the
    classifier returns true, for every text (a string or absent) and
    every status. *)
Theorem server_cloudflare_flagged (t : option string) (status : JsVal)
    (h : gmap string string) (v : string) :
  h !! "server" = Some v →
  includes (toLowerCase v) "cloudflare" = true →
  isVerificationText (of_text t) status (of_headers h) = Returned true.
Proof.
  intros Hk Hv. rewrite isVerificationText_typed. f_equal.
  unfold server_is_cloudflare. rewrite Hk, Hv. now rewrite !orb_true_r.
Qed.

Lemma server_cloudflare_flagged_witness :
  isVerificationText (of_text (Some "hello")) (JNum 200)
    (of_headers {[ "server" := "CloudFlare-nginx" ]}) = Returned true.
Proof.
  apply (server_cloudflare_flagged (Some "hello") (JNum 200)
           {[ "server" := "CloudFlare-nginx" ]} "CloudFlare-nginx").
  - vm_compute. reflexivity.
  - vm_compute. reflexivity.
Defined.

(** ** Failure *)

(** C3, as the specification states it, fails: a text that is a number
    has no [toLowerCase] method, and reading a property of a [null]
    header argument throws once the status and the text have decided
    nothing. *)
Lemma isVerificationText_throws :
  isVerificationText (JNum 5) (JNum 200) (of_headers ∅) = Thrown TypeError ∧
  isVerificationText (JStr "hello") (JNum 200) JNull = Thrown TypeError.
Proof. split; vm_compute; reflexivity. Qed.

(** C3, amended: for every text that is a string or absent, every
    status and every header mapping with string values the classifier
    returns a boolean, and an absent text is treated as the empty
    string. *)
Theorem isVerificationText_returns (t : option string) (status : JsVal)
    (h : gmap string string) :
  (∃ b : bool,
      isVerificationText (of_text t) status (of_headers h) = Returned b) ∧
  isVerificationText (of_text None) status (of_headers h) =
  isVerificationText (JStr "") status (of_headers h).
Proof.
  split.
  - rewrite isVerificationText_typed. eauto.
  - reflexivity.
Qed.

(** ** The four conditions *)

(** C4: with a status other than 403 and 503 (or absent), a text whose
    lower-casing contains none of the ten patterns, a [server] value
    that does not contain [cloudflare] in any letter case, and neither
    [cf-ray] nor [cf-chl-bypass] in the mapping, the classifier returns
    false. *)
Theorem no_signal_not_flagged (t : option string) (status : JsVal)
    (h : gmap string string) :
  status ≠ JNum 403 → status ≠ JNum 503 →
  (∀ p, In p patterns → includes (toLowerCase (default "" t)) p = false) →
  (∀ v, h !! "server" = Some v →
        includes (toLowerCase v) "cloudflare" = false) →
  h !! "cf-ray" = None → h !! "cf-chl-bypass" = None →
  isVerificationText (of_text t) status (of_headers h) = Returned false.
Proof.
  intros H403 H503 Htext Hserver Hray Hbypass.
  rewrite isVerificationText_typed. f_equal.
  rewrite <- strict_eq_num_true, not_true_iff_false in H403, H503.
  rewrite H403, H503.
  unfold text_matches. rewrite <- pattern_loop_existsb.
  apply pattern_loop_false in Htext. rewrite Htext.
  unfold server_is_cloudflare, header_nonempty. rewrite Hray, Hbypass.
  destruct (h !! "server") as [v|]; [|reflexivity].
  now rewrite (Hserver v eq_refl).
Qed.

Lemma no_signal_not_flagged_witness :
  isVerificationText (of_text (Some "Welcome to our site")) (JNum 404)
    (of_headers {[ "server" := "nginx" ]}) = Returned false.
Proof.
  apply (no_signal_not_flagged (Some "Welcome to our site") (JNum 404)
           {[ "server" := "nginx" ]}).
  - discriminate.
  - discriminate.
  - apply pattern_loop_false. vm_compute. reflexivity.
  - intros v Hv. vm_compute in Hv. injection Hv as <-. vm_compute. reflexivity.
  - vm_compute. reflexivity.
  - vm_compute. reflexivity.
Defined.

(** C6: when the status is 403 or 503 the classifier returns true,
    whatever the text (a string or absent) and whatever the header
    argument, which is not looked at. *)
Theorem status_blocked_flagged (t : option string) (status headers : JsVal) :
  status = JNum 403 ∨ status = JNum 503 →
  isVerificationText (of_text t) status headers = Returned true.
Proof.
  intros Hs. unfold isVerificationText. rewrite lower_text. cbn [bind].
  destruct Hs as [-> | ->]; reflexivity.
Qed.

Lemma status_blocked_flagged_witness :
  isVerificationText (of_text (Some "")) (JNum 503) (of_headers ∅) =
  Returned true.
Proof.
  apply (status_blocked_flagged (Some "") (JNum 503) (of_headers ∅)).
  right. reflexivity.
Defined.

(** C7: when the lower-cased text contains one of the ten patterns, at
    any position, the classifier returns true, for every status and
    every header argument. *)
Theorem text_pattern_flagged (text : string) (status headers : JsVal)
    (p : string) :
  In p patterns →
  includes (toLowerCase text) p = true →
  isVerificationText (JStr text) status headers = Returned true.
Proof.
  intros Hp Hi. apply pattern_hit_flagged, pattern_loop_true. eauto.
Qed.

Lemma text_pattern_flagged_witness :
  isVerificationText (JStr "Solve the reCAPTCHAs below") (JNum 200)
    (of_headers ∅) = Returned true.
Proof.
  apply (text_pattern_flagged "Solve the reCAPTCHAs below" (JNum 200)
           (of_headers ∅) "recaptcha").
  - vm_compute. tauto.
  - vm_compute. reflexivity.
Defined.

(** Every pattern is found in a text that embeds a copy of it in any
    letter case. *)
Corollary embedded_pattern_flagged (a w b p : string) (status headers : JsVal) :
  In p patterns → toLowerCase w = p →
  isVerificationText (JStr (a +:+ w +:+ b)) status headers = Returned true.
Proof.
  intros Hp Hw. apply pattern_hit_flagged, pattern_loop_true.
  exists p. split; [exact Hp|]. now apply includes_lower_embedded.
Qed.

(** ** The verdict as a disjunction *)

(** C8, as the specification states it, fails: with [cf-ray] present but
    empty the disjunction of the four conditions is true while the
    classifier answers false. *)
Lemma verdict_spec_differs :
  verdict_spec (Some "hello") (Some 200) {[ "cf-ray" := "" ]} = true ∧
  isVerificationText (of_text (Some "hello")) (of_status (Some 200))
    (of_headers {[ "cf-ray" := "" ]}) = Returned false.
Proof. split; vm_compute; reflexivity. Qed.

(** C8, amended: on every well-typed input the ordered, short-circuiting
    evaluation equals the disjunction of the four conditions, the fourth
    being that [cf-ray] or [cf-chl-bypass] has a non-empty value. *)
Theorem isVerificationText_disjunction (t : option string) (st : option Z)
    (h : gmap string string) :
  isVerificationText (of_text t) (of_status st) (of_headers h) =
  Returned (verdict_disjunction t st h).
Proof.
  rewrite isVerificationText_typed, strict_eq_num_of_status. reflexivity.
Qed.

(** The disjunction does not depend on the order of its conditions. *)
Lemma verdict_disjunction_reordered (t : option string) (st : option Z)
    (h : gmap string string) :
  verdict_disjunction t st h =
  (header_nonempty h "cf-chl-bypass" || header_nonempty h "cf-ray")
  || server_is_cloudflare h || text_matches t || status_blocked st.
Proof.
  unfold verdict_disjunction.
  destruct (status_blocked st), (text_matches t), (server_is_cloudflare h),
    (header_nonempty h "cf-ray"), (header_nonempty h "cf-chl-bypass");
    reflexivity.
Qed.

(** The two readings of the fourth condition agree on the mappings whose
    [cf-ray] and [cf-chl-bypass] values are not empty. *)
Lemma verdict_spec_agrees (t : option string) (st : option Z)
    (h : gmap string string) :
  h !! "cf-ray" ≠ Some "" → h !! "cf-chl-bypass" ≠ Some "" →
  verdict_spec t st h = verdict_disjunction t st h.
Proof.
  intros Hray Hbypass. unfold verdict_spec, verdict_disjunction.
  unfold header_present, header_nonempty.
  destruct (h !! "cf-ray") as [[|c v]|], (h !! "cf-chl-bypass") as [[|d w]|];
    try reflexivity; congruence.
Qed.

(** ** Monotonicity in the text *)

(** C10: a true verdict on a text stays true when more text is appended
    or prepended, for every status and every header argument. *)
Theorem isVerificationText_monotone (t u : string) (status headers : JsVal) :
  isVerificationText (JStr t) status headers = Returned true →
  isVerificationText (JStr (t +:+ u)) status headers = Returned true ∧
  isVerificationText (JStr (u +:+ t)) status headers = Returned true.
Proof.
  unfold isVerificationText. rewrite !lower_str. cbn [bind].
  destruct (strict_eq_num status 403 || strict_eq_num status 503);
    [now split|].
  destruct (pattern_loop (toLowerCase t) patterns) eqn:Ht.
  - intros _. apply pattern_loop_true in Ht as (p & Hp & Hi).
    rewrite !toLowerCase_app. split.
    + assert (pattern_loop (toLowerCase t +:+ toLowerCase u) patterns = true)
        as -> by (apply pattern_loop_true; eauto using includes_app_r).
      reflexivity.
    + assert (pattern_loop (toLowerCase u +:+ toLowerCase t) patterns = true)
        as -> by (apply pattern_loop_true; eauto using includes_app_l).
      reflexivity.
  - intros Hrest. split.
    + now destruct (pattern_loop (toLowerCase (t +:+ u)) patterns).
    + now destruct (pattern_loop (toLowerCase (u +:+ t)) patterns).
Qed.

Lemma isVerificationText_monotone_witness :
  isVerificationText (JStr ("captcha" +:+ " solved")) (JNum 200)
    (of_headers ∅) = Returned true ∧
  isVerificationText (JStr (" solved" +:+ "captcha")) (JNum 200)
    (of_headers ∅) = Returned true.
Proof.
  apply (isVerificationText_monotone "captcha" " solved" (JNum 200)
           (of_headers ∅)).
  vm_compute. reflexivity.
Defined.

(** ** The result of a fetch *)

(** A page the browser hands back always yields a result. *)
Lemma fetchWithPlaywright_returns browse target page :
  browse target = Returned page →
  ∃ r, fetchWithPlaywright browse target = Returned r.
Proof.
  intros Hpage. unfold fetchWithPlaywright. rewrite Hpage. cbn [bind].
  cbv zeta. destruct (page_response page) as [[st raw]|]; cbv beta iota.
  - rewrite isVerificationText_typed_str. cbn [bind]. eauto.
  - rewrite <- of_headers_empty, isVerificationText_typed_str. cbn [bind].
    eauto.
Qed.

(** C9: in every result returned by [fetchWithPlaywright] the field
    [ok] is the negation of the field [verification_required]. *)
Theorem ok_negates_verification_required (browse : string → Outcome Page)
    (target : string) (r : FetchResult) :
  fetchWithPlaywright browse target = Returned r →
  ok r = negb (verification_required r).
Proof.
  unfold fetchWithPlaywright.
  destruct (browse target) as [page|err]; cbn [bind]; [|discriminate].
  match goal with
  | |- context [isVerificationText ?a ?b ?c] =>
      destruct (isVerificationText a b c) as [v|err]
  end; cbn [bind]; [|discriminate].
  intros [= <-]. cbn. now destruct v.
Qed.

Lemma ok_negates_verification_required_witness :
  ∃ r, fetchWithPlaywright (browse example_env) "https://example.com/" =
       Returned r ∧ ok r = negb (verification_required r).
Proof.
  eexists. split; [vm_compute; reflexivity|].
  apply (ok_negates_verification_required (browse example_env)
           "https://example.com/").
  vm_compute. reflexivity.
Defined.

(** ** The url parameter *)

Section Routes.

Variable E : Env.

Lemma normalizeTarget_malformed raw :
  malformed E raw → normalizeTarget (parseURL E) raw = None.
Proof.
  unfold malformed, normalizeTarget.
  destruct (parseURL E raw) as [u|]; [|reflexivity].
  intros [Hhttp Hhttps]. apply String.eqb_neq in Hhttp, Hhttps.
  now rewrite Hhttp, Hhttps.
Qed.

(** [/api/fetch.js] answers 400 exactly when [normalizeTarget] yields
    no target. *)
Lemma route_api_fetch_400 q :
  normalizeTarget (parseURL E) (ToString q) = None →
  code (route_api_fetch E q) = 400.
Proof. intros Hn. unfold route_api_fetch. now rewrite Hn. Qed.

(** The two HTML routes hand every non-empty url to the browser: the
    answer is the page or the error of the browser, never 400. *)
Lemma route_index_nonempty c raw :
  code (route_index E (Some (String c raw))) = 200 ∨
  code (route_index E (Some (String c raw))) = 500.
Proof.
  unfold route_index. cbn [of_text truthy is_empty negb].
  destruct (render E _); [left|right]; reflexivity.
Qed.

Lemma route_root_nonempty c raw :
  code (route_root E (Some (String c raw))) = 200 ∨
  code (route_root E (Some (String c raw))) = 500.
Proof.
  unfold route_root. cbn [of_text truthy is_empty negb].
  destruct (render E _); [left|right]; reflexivity.
Qed.

(** The route [/] sends its message for a missing url without setting
    the status, unlike [/index]. *)
Lemma route_root_missing : code (handle E RouteRoot None) = 200.
Proof. reflexivity. Qed.

Lemma route_index_missing : code (handle E RouteIndex None) = 400.
Proof. reflexivity. Qed.

End Routes.

(** C5, as the specification states it, fails: the route [/index] does
    not validate the url, so a malformed one is handed to the browser
    and the failed navigation is answered with 500. *)
Lemma index_malformed_url_not_400 :
  malformed example_env "not a url" ∧
  code (handle example_env RouteIndex (Some "not a url")) = 500.
Proof. split; vm_compute; [exact I | reflexivity]. Qed.

(** C5, amended: the route [/api/fetch.js] answers 400 when the url is
    missing or malformed, and the route [/index] answers 400 when the
    url is missing or empty. The URL constructor is taken to reject the
    string [undefined], which is what a missing parameter is converted
    to. *)
Theorem bad_url_rejected (E : Env) (route : Route) (q : option string) :
  malformed E "undefined" →
  (route = RouteApiFetch ∧
   (missing q ∨ ∃ raw, q = Some raw ∧ malformed E raw)) ∨
  (route = RouteIndex ∧ (missing q ∨ q = Some "")) →
  code (handle E route q) = 400.
Proof.
  intros Hundef [[-> Hq] | [-> Hq]]; cbn [handle].
  - apply route_api_fetch_400, normalizeTarget_malformed.
    destruct Hq as [-> | (raw & -> & Hraw)]; assumption.
  - destruct Hq as [-> | ->]; reflexivity.
Qed.

Lemma bad_url_rejected_witness :
  code (handle example_env RouteApiFetch (Some "ftp://example.com/a.zip")) = 400.
Proof.
  apply (bad_url_rejected example_env RouteApiFetch
           (Some "ftp://example.com/a.zip")).
  - vm_compute. exact I.
  - left. split; [reflexivity|]. right.
    exists "ftp://example.com/a.zip". split; [reflexivity|].
    vm_compute. split; discriminate.
Defined.


(** * Further properties of the code *)

(** ** Lower-casing *)

Lemma lower_char_idempotent (c : ascii) :
  lower_char (lower_char c) = lower_char c.
Proof.
  destruct c as [[] [] [] [] [] [] [] []]; vm_compute; reflexivity.
Qed.

Lemma toLowerCase_idempotent (s : string) :
  toLowerCase (toLowerCase s) = toLowerCase s.
Proof.
  induction s as [|c s IH]; [reflexivity|].
  simpl. now rewrite lower_char_idempotent, IH.
Qed.

(** ** The classifier and the case of its text *)

(** X1: two texts with the same lower-casing get the same outcome, for
    every status and every header argument. *)
Theorem isVerificationText_case_insensitive (t t' : string)
    (status headers : JsVal) :
  toLowerCase t = toLowerCase t' →
  isVerificationText (JStr t) status headers =
  isVerificationText (JStr t') status headers.
Proof.
  intros Hlow. unfold isVerificationText. rewrite !lower_str. cbn [bind].
  now rewrite Hlow.
Qed.

Lemma isVerificationText_case_insensitive_witness :
  isVerificationText (JStr "Checking Your Browser") (JNum 200) (of_headers ∅) =
  isVerificationText (JStr "CHECKING YOUR BROWSER") (JNum 200) (of_headers ∅).
Proof.
  apply (isVerificationText_case_insensitive "Checking Your Browser"
           "CHECKING YOUR BROWSER" (JNum 200) (of_headers ∅)).
  vm_compute. reflexivity.
Defined.

(** Lower-casing the text beforehand changes nothing. *)
Corollary isVerificationText_lowered (t : string) (status headers : JsVal) :
  isVerificationText (JStr (toLowerCase t)) status headers =
  isVerificationText (JStr t) status headers.
Proof.
  unfold isVerificationText. rewrite !lower_str. cbn [bind].
  now rewrite toLowerCase_idempotent.
Qed.

(** ** What the classifier reads *)

(** X2: of the header object only the properties [server], [cf-ray] and
    [cf-chl-bypass] are read: two objects that agree on them get the
    same outcome, whatever the text and the status. *)
Theorem only_three_headers_read (text status : JsVal)
    (props props' : gmap string JsVal) :
  props !! "server" = props' !! "server" →
  props !! "cf-ray" = props' !! "cf-ray" →
  props !! "cf-chl-bypass" = props' !! "cf-chl-bypass" →
  isVerificationText text status (JObj props) =
  isVerificationText text status (JObj props').
Proof.
  intros Hserver Hray Hbypass. unfold isVerificationText, get.
  now rewrite Hserver, Hray, Hbypass.
Qed.

Lemma only_three_headers_read_witness :
  isVerificationText (JStr "hello") (JNum 200)
    (JObj {[ "cf-ray" := JStr "8a1b" ]}) =
  isVerificationText (JStr "hello") (JNum 200)
    (JObj (<[ "content-type" := JStr "text/html" ]> {[ "cf-ray" := JStr "8a1b" ]})).
Proof.
  apply (only_three_headers_read (JStr "hello") (JNum 200)
           {[ "cf-ray" := JStr "8a1b" ]}
           (<[ "content-type" := JStr "text/html" ]> {[ "cf-ray" := JStr "8a1b" ]}));
    vm_compute; reflexivity.
Defined.

(** X3: every status other than the numbers 403 and 503 is the same to
    the classifier, be it another number, [null], or the string
    ["403"]. *)
Theorem other_statuses_equivalent (text headers status status' : JsVal) :
  status ≠ JNum 403 → status ≠ JNum 503 →
  status' ≠ JNum 403 → status' ≠ JNum 503 →
  isVerificationText text status headers =
  isVerificationText text status' headers.
Proof.
  intros H1 H2 H3 H4.
  rewrite <- strict_eq_num_true, not_true_iff_false in H1, H2, H3, H4.
  unfold isVerificationText. now rewrite H1, H2, H3, H4.
Qed.

Lemma other_statuses_equivalent_witness :
  isVerificationText (JStr "hello") (JStr "403") (of_headers ∅) =
  isVerificationText (JStr "hello") JNull (of_headers ∅).
Proof.
  apply (other_statuses_equivalent (JStr "hello") (of_headers ∅)
           (JStr "403") JNull); discriminate.
Defined.

(** X4: adding headers to the mapping never turns a true verdict into
    another outcome. *)
Theorem isVerificationText_header_monotone (t : option string)
    (status : JsVal) (h h' : gmap string string) :
  h ⊆ h' →
  isVerificationText (of_text t) status (of_headers h) = Returned true →
  isVerificationText (of_text t) status (of_headers h') = Returned true.
Proof.
  intros Hsub. rewrite !isVerificationText_typed. intros [= Hv]. f_equal.
  rewrite !orb_true_iff in Hv. rewrite !orb_true_iff.
  unfold server_is_cloudflare, header_nonempty in *.
  destruct Hv as [[[Hs|Ht]|Hsrv]|[Hray|Hbyp]]; [tauto|tauto| | |].
  - destruct (h !! "server") as [v|] eqn:Hl; [|discriminate].
    rewrite (lookup_weaken _ _ _ _ Hl Hsub). tauto.
  - destruct (h !! "cf-ray") as [v|] eqn:Hl; [|discriminate].
    rewrite (lookup_weaken _ _ _ _ Hl Hsub). tauto.
  - destruct (h !! "cf-chl-bypass") as [v|] eqn:Hl; [|discriminate].
    rewrite (lookup_weaken _ _ _ _ Hl Hsub). tauto.
Qed.

Lemma isVerificationText_header_monotone_witness :
  isVerificationText (of_text (Some "hello")) (JNum 200)
    (of_headers (<[ "date" := "today" ]> {[ "cf-ray" := "8a1b" ]})) =
  Returned true.
Proof.
  apply (isVerificationText_header_monotone (Some "hello") (JNum 200)
           {[ "cf-ray" := "8a1b" ]}
           (<[ "date" := "today" ]> {[ "cf-ray" := "8a1b" ]})).
  - apply insert_subseteq. vm_compute. reflexivity.
  - vm_compute. reflexivity.
Defined.

(** X5: the patterns [hcaptcha] and [recaptcha] never decide: a sample
    that contains one of them contains [captcha], so the loop gives the
    same answer without them. *)
Theorem captcha_variants_redundant (sample : string) :
  pattern_loop sample patterns =
  pattern_loop sample patterns_without_captcha_variants.
Proof.
  assert (∀ c, includes sample (String c "captcha") = true →
               includes sample "captcha" = true) as Hsub.
  { intros c. rewrite !includes_iff. intros (a & b & ->).
    exists (a +:+ String c ""), b. now rewrite app_assoc_string. }
  rewrite !pattern_loop_existsb.
  unfold patterns, patterns_without_captcha_variants. cbn [existsb].
  destruct (includes sample "captcha") eqn:Hc.
  - now rewrite !orb_true_r.
  - assert (includes sample "hcaptcha" = false) as ->
      by (apply not_true_iff_false; intros H; apply Hsub in H; congruence).
    assert (includes sample "recaptcha" = false) as ->.
    { apply not_true_iff_false. rewrite includes_iff. intros (a & b & ->).
      assert (includes (a +:+ "recaptcha" +:+ b) "captcha" = true) as H; [|congruence].
      apply includes_iff. exists (a +:+ "re"), b.
      now rewrite app_assoc_string. }
    reflexivity.
Qed.

(** ** When the classifier throws *)

Lemma lower_string_or_falsy (v : JsVal) :
  string_or_falsy v = true →
  ∃ s, call_toLowerCase (js_or v (JStr "")) = Returned s.
Proof.
  unfold js_or. destruct v as [| |b|n|s|props]; cbn; intros Hv.
  - eauto.
  - eauto.
  - apply negb_true_iff in Hv as ->. eauto.
  - apply negb_true_iff in Hv as ->. eauto.
  - destruct s; cbn; eauto.
  - discriminate.
Qed.

Lemma lower_not_string (v : JsVal) :
  string_or_falsy v = false →
  call_toLowerCase (js_or v (JStr "")) = Thrown TypeError.
Proof.
  unfold js_or. destruct v as [| |b|n|s|props]; cbn; try discriminate.
  - intros Hv. apply negb_false_iff in Hv as ->. reflexivity.
  - intros Hv. apply negb_false_iff in Hv. rewrite Hv. reflexivity.
  - reflexivity.
Qed.

(** The classifier throws nothing but a TypeError. *)
Lemma isVerificationText_throws_TypeError (text status headers : JsVal)
    (err : string) :
  isVerificationText text status headers = Thrown err → err = TypeError.
Proof.
  unfold isVerificationText.
  destruct (string_or_falsy text) eqn:Ht.
  2:{ rewrite (lower_not_string _ Ht). cbn [bind]. congruence. }
  destruct (lower_string_or_falsy _ Ht) as [s ->]. cbn [bind].
  destruct (_ || _); [discriminate|].
  destruct (pattern_loop _ _); [discriminate|].
  destruct headers as [| |b|n|hs|props]; cbn [get bind]; try congruence.
  all: match goal with
       | |- context [call_toLowerCase (js_or ?v (JStr ""))] =>
           destruct (string_or_falsy v) eqn:Hs;
           [destruct (lower_string_or_falsy _ Hs) as [s' ->]
           |rewrite (lower_not_string _ Hs)]
       end; cbn [bind]; try congruence.
  all: destruct (includes _ _); [discriminate|].
  all: repeat match goal with
       | |- context [if ?b then _ else _] => destruct b; cbn [bind]
       end; discriminate.
Qed.

(** X6: the classifier returns a boolean whenever the text is a string
    or falsy, the header argument is neither [null] nor [undefined], and
    its [server] property, if any, is a string or falsy. The other
    properties may hold any value. *)
Theorem isVerificationText_returns_general (text status headers : JsVal) :
  string_or_falsy text = true →
  headers ≠ JNull → headers ≠ JUndefined →
  (∀ props sv, headers = JObj props → props !! "server" = Some sv →
               string_or_falsy sv = true) →
  ∃ b : bool, isVerificationText text status headers = Returned b.
Proof.
  intros Ht Hnull Hundef Hserver. unfold isVerificationText.
  destruct (lower_string_or_falsy _ Ht) as [s ->]. cbn [bind].
  destruct (_ || _); [eauto|].
  destruct (pattern_loop _ _); [eauto|].
  assert (∃ sv, get headers "server" = Returned sv ∧
                string_or_falsy sv = true) as (sv & -> & Hsv).
  { destruct headers as [| |b|n|hs|props]; cbn [get]; try congruence; eauto.
    destruct (props !! "server") as [sv|] eqn:Hl; cbn; eauto. }
  cbn [bind]. destruct (lower_string_or_falsy _ Hsv) as [s' ->]. cbn [bind].
  destruct (includes _ _); [eauto|].
  assert (∀ k, ∃ v, get headers k = Returned v) as Hget.
  { intros k. destruct headers; cbn [get]; try congruence; eauto. }
  destruct (Hget "cf-ray") as [ray ->]. cbn [bind].
  destruct (truthy ray) eqn:Hray; cbn [bind].
  - rewrite Hray. eauto.
  - destruct (Hget "cf-chl-bypass") as [byp ->]. cbn [bind].
    destruct (truthy byp); eauto.
Qed.

Lemma isVerificationText_returns_general_witness :
  ∃ b : bool,
    isVerificationText (JNum 0) JUndefined
      (JObj {[ "server" := JNull; "cf-ray" := JNum 7 ]}) = Returned b.
Proof.
  apply (isVerificationText_returns_general (JNum 0) JUndefined
           (JObj {[ "server" := JNull; "cf-ray" := JNum 7 ]})).
  - reflexivity.
  - discriminate.
  - discriminate.
  - intros props sv [= <-] Hsv. vm_compute in Hsv. injection Hsv as <-.
    reflexivity.
Defined.



(** X8: with [null] or [undefined] as the header argument the classifier
    returns true when the status or the text decides, and throws a
    TypeError otherwise. *)
Theorem missing_headers_outcome (t : option string) (status headers : JsVal) :
  headers = JNull ∨ headers = JUndefined →
  isVerificationText (of_text t) status headers =
  if strict_eq_num status 403 || strict_eq_num status 503 || text_matches t
  then Returned true else Thrown TypeError.
Proof.
  intros Hh. unfold isVerificationText. rewrite lower_text. cbn [bind].
  rewrite pattern_loop_existsb. fold (text_matches t).
  destruct (_ || _); [reflexivity|]. cbn [orb].
  destruct (text_matches t); [reflexivity|].
  destruct Hh as [-> | ->]; reflexivity.
Qed.

Lemma missing_headers_outcome_witness :
  isVerificationText (of_text (Some "hello")) (JNum 200) JNull =
  Thrown TypeError.
Proof.
  apply (missing_headers_outcome (Some "hello") (JNum 200) JNull).
  left. reflexivity.
Defined.

(** ** The text sample *)

Section Slice.

Implicit Types (s e : string) (n : nat).

Lemma substring_0_length s n : (String.length (substring 0 n s) ≤ n)%nat.
Proof.
  revert s. induction n as [|n IH]; intros [|c s]; simpl; try lia.
  specialize (IH s). lia.
Qed.

Lemma substring_0_prefix s n : ∃ rest, s = substring 0 n s +:+ rest.
Proof.
  revert s. induction n as [|n IH]; intros [|c s]; simpl.
  - exists "". reflexivity.
  - exists (String c s). reflexivity.
  - exists "". reflexivity.
  - destruct (IH s) as [rest Hrest]. exists rest.
    rewrite append_cons. now rewrite <- Hrest.
Qed.

Lemma substring_0_short s n :
  (String.length s ≤ n)%nat → substring 0 n s = s.
Proof.
  revert s. induction n as [|n IH]; intros [|c s]; simpl; try lia;
    try reflexivity.
  intros Hlen. rewrite IH; [reflexivity|lia].
Qed.


End Slice.

(** ** The result of a fetch, read off the page *)

(** What a returned result is made of. *)
Lemma fetchWithPlaywright_inv (browse : string → Outcome Page)
    (target : string) (r : FetchResult) :
  fetchWithPlaywright browse target = Returned r →
  ∃ page b,
    browse target = Returned page ∧
    isVerificationText (JStr (slice0 (page_bodyText page) 10000))
      (response_status page) (response_headers page) = Returned b ∧
    r = {| ok := negb b;
           verification_required := b;
           status := response_status page;
           headers := response_headers page;
           html := page_content page;
           textSample := slice0 (page_bodyText page) 10000;
           screenshot := page_screenshot page |}.
Proof.
  unfold fetchWithPlaywright.
  destruct (browse target) as [page|err]; cbn [bind]; [|discriminate].
  cbv zeta. fold (response_status page) (response_headers page).
  destruct (isVerificationText _ _ _) as [b|err] eqn:Hv; cbn [bind];
    [|discriminate].
  intros [= <-]. exists page, b. rewrite negb_involutive. auto.
Qed.

(** On a page the classifier never throws: its arguments are a string, a
    number or [null], and a mapping of strings. *)
Lemma classify_page (page : Page) :
  ∃ b, isVerificationText (JStr (slice0 (page_bodyText page) 10000))
         (response_status page) (response_headers page) = Returned b.
Proof.
  unfold response_headers.
  destruct (page_response page) as [[st raw]|].
  - rewrite isVerificationText_typed_str. eauto.
  - rewrite <- of_headers_empty, isVerificationText_typed_str. eauto.
Qed.

(** X9: the text sample of a result is the start of the inner text of
    the page and is at most 10000 characters long; a shorter inner text
    is kept whole. *)
Theorem textSample_bounded (browse : string → Outcome Page)
    (target : string) (page : Page) (r : FetchResult) :
  browse target = Returned page →
  fetchWithPlaywright browse target = Returned r →
  Z.of_nat (String.length (textSample r)) ≤ 10000 ∧
  (∃ rest, page_bodyText page = textSample r +:+ rest) ∧
  (Z.of_nat (String.length (page_bodyText page)) ≤ 10000 →
   textSample r = page_bodyText page).
Proof.
  intros Hpage Hr.
  apply fetchWithPlaywright_inv in Hr as (page' & b & Hpage' & _ & ->).
  rewrite Hpage in Hpage'. injection Hpage' as <-. cbn [textSample].
  unfold slice0. split; [|split].
  - pose proof (substring_0_length (page_bodyText page) (Z.to_nat 10000)). lia.
  - apply substring_0_prefix.
  - intros Hlen. apply substring_0_short. lia.
Qed.

Lemma textSample_bounded_witness :
  ∃ r, fetchWithPlaywright (browse example_env) "https://example.com/" =
       Returned r ∧
       textSample r = page_bodyText example_page.
Proof.
  eexists. split; [vm_compute; reflexivity|].
  apply (textSample_bounded (browse example_env) "https://example.com/"
           example_page).
  - vm_compute. reflexivity.
  - vm_compute. reflexivity.
  - vm_compute. discriminate.
Defined.

(** X10: a result agrees with the classifier on its own fields:
    classifying the text sample, the status and the headers of the
    result gives its [verification_required]. *)
Theorem result_consistent (browse : string → Outcome Page) (target : string)
    (r : FetchResult) :
  fetchWithPlaywright browse target = Returned r →
  isVerificationText (JStr (textSample r)) (status r) (headers r) =
  Returned (verification_required r).
Proof.
  intros Hr. apply fetchWithPlaywright_inv in Hr as (page & b & _ & Hb & ->).
  exact Hb.
Qed.

Lemma result_consistent_witness :
  ∃ r, fetchWithPlaywright (browse example_blocked_env) "https://example.com/" =
       Returned r ∧
       isVerificationText (JStr (textSample r)) (status r) (headers r) =
       Returned (verification_required r).
Proof.
  eexists. split; [vm_compute; reflexivity|].
  apply (result_consistent (browse example_blocked_env) "https://example.com/").
  vm_compute. reflexivity.
Defined.

Lemma fetch_throws (browse : string → Outcome Page) (target err : string) :
  fetchWithPlaywright browse target = Thrown err → browse target = Thrown err.
Proof.
  unfold fetchWithPlaywright.
  destruct (browse target) as [page|e]; cbn [bind]; [|congruence].
  cbv zeta. fold (response_status page) (response_headers page).
  destruct (classify_page page) as [b ->]. cbn [bind]. discriminate.
Qed.

Lemma browser_throws (browse : string → Outcome Page) (target err : string) :
  browse target = Thrown err → fetchWithPlaywright browse target = Thrown err.
Proof. intros Hb. unfold fetchWithPlaywright. now rewrite Hb. Qed.

(** X11: a fetch throws exactly when the browser does, and with the
    error of the browser: the classification adds no failure. *)
Theorem fetch_throws_iff (browse : string → Outcome Page) (target err : string) :
  fetchWithPlaywright browse target = Thrown err ↔ browse target = Thrown err.
Proof. split; [apply fetch_throws|apply browser_throws]. Qed.



(** X13: when the navigation yields no response the result has the
    status [null] and no headers, and the verdict is the one of the text
    alone. *)
Theorem no_response_verdict (browse : string → Outcome Page) (target : string)
    (page : Page) (r : FetchResult) :
  browse target = Returned page →
  page_response page = None →
  fetchWithPlaywright browse target = Returned r →
  status r = JNull ∧ headers r = JObj ∅ ∧
  verification_required r = text_matches (Some (textSample r)).
Proof.
  intros Hpage Hnone Hr.
  apply fetchWithPlaywright_inv in Hr as (p & b & Hp & Hb & ->).
  rewrite Hpage in Hp. injection Hp as <-.
  unfold response_status, response_headers in *. rewrite Hnone in *.
  cbn [status headers verification_required textSample].
  split; [reflexivity|]. split; [reflexivity|].
  rewrite <- of_headers_empty, isVerificationText_typed_str in Hb.
  injection Hb as <-.
  unfold server_is_cloudflare, header_nonempty. rewrite !lookup_empty.
  cbn [strict_eq_num orb]. now rewrite !orb_false_r.
Qed.

Lemma no_response_verdict_witness :
  ∃ r,
    fetchWithPlaywright
      (fun _ => Returned {| page_response := None;
                            page_content := "<html></html>";
                            page_bodyText := "Verify you are human";
                            page_screenshot := "" |})
      "https://example.com/" = Returned r ∧
    status r = JNull ∧ headers r = JObj ∅ ∧
    verification_required r = text_matches (Some (textSample r)).
Proof.
  eexists. split; [vm_compute; reflexivity|].
  eapply (no_response_verdict
            (fun _ => Returned {| page_response := None;
                                  page_content := "<html></html>";
                                  page_bodyText := "Verify you are human";
                                  page_screenshot := "" |})
            "https://example.com/").
  - reflexivity.
  - reflexivity.
  - vm_compute. reflexivity.
Defined.

(** ** The answers of the routes *)

Section RouteAnswers.

Variable E : Env.

(** With a target that passes [normalizeTarget] the route
    [/api/fetch.js] answers from the fetch. *)
Lemma route_api_fetch_valid (q : option string) (target : string) :
  normalizeTarget (parseURL E) (ToString q) = Some target → target ≠ "" →
  route_api_fetch E q =
  match fetchWithPlaywright (browse E) target with
  | Returned result =>
      if verification_required result
      then {| code := 200;
              body := JsonVerification verification_message target
                        (screenshot result) |}
      else {| code := 200;
              body := JsonPage (status result) (headers result)
                        (html result) (textSample result) |}
  | Thrown err => {| code := 500; body := JsonError err |}
  end.
Proof.
  intros Hn Ht. unfold route_api_fetch. rewrite Hn.
  destruct target; [congruence|reflexivity].
Qed.

Lemma route_api_fetch_cases (q : option string) :
  (route_api_fetch E q =
     {| code := 400; body := JsonError "Invalid or missing url" |} ∧
   (normalizeTarget (parseURL E) (ToString q) = None ∨
    normalizeTarget (parseURL E) (ToString q) = Some "")) ∨
  (∃ target, normalizeTarget (parseURL E) (ToString q) = Some target ∧
             target ≠ "").
Proof.
  unfold route_api_fetch.
  destruct (normalizeTarget _ _) as [[|c target]|]; cbn [is_empty]; eauto.
Qed.

End RouteAnswers.

(** X14: the route [/api/fetch.js] answers 400 exactly when
    [normalizeTarget] yields no target or an empty one; the browser has
    no part in it. *)
Theorem api_fetch_400_iff (E : Env) (q : option string) :
  code (route_api_fetch E q) = 400 ↔
  normalizeTarget (parseURL E) (ToString q) = None ∨
  normalizeTarget (parseURL E) (ToString q) = Some "".
Proof.
  destruct (route_api_fetch_cases E q) as [[-> Hn] | (target & Hn & Ht)].
  - tauto.
  - rewrite (route_api_fetch_valid E q target Hn Ht), Hn. split.
    + destruct (fetchWithPlaywright _ _) as [r|err]; [destruct (verification_required r)|];
        cbn [code]; discriminate.
    + intros [H | H]; congruence.
Qed.


(** X16: a page answered with 403 or 503 is never handed out: for a
    valid target the route [/api/fetch.js] answers with the verification
    message, the target and the screenshot of the page, under the HTTP
    status 200. *)
Theorem api_fetch_blocked_page (E : Env) (q : option string)
    (target : string) (page : Page) (st : Z) (raw : gmap string string) :
  normalizeTarget (parseURL E) (ToString q) = Some target → target ≠ "" →
  browse E target = Returned page →
  page_response page = Some (st, raw) →
  st = 403 ∨ st = 503 →
  route_api_fetch E q =
  {| code := 200;
     body := JsonVerification verification_message target
               (page_screenshot page) |}.
Proof.
  intros Hn Ht Hpage Hresp Hst.
  rewrite (route_api_fetch_valid E q target Hn Ht).
  unfold fetchWithPlaywright. rewrite Hpage. cbn [bind]. cbv zeta.
  rewrite Hresp.
  assert (isVerificationText (JStr (slice0 (page_bodyText page) 10000))
            (JNum st) (of_headers raw) = Returned true) as ->.
  { rewrite isVerificationText_typed_str.
    destruct Hst as [-> | ->]; reflexivity. }
  reflexivity.
Qed.

Lemma api_fetch_blocked_page_witness :
  route_api_fetch example_blocked_env (Some "https://example.com/") =
  {| code := 200;
     body := JsonVerification verification_message "https://example.com/"
               (page_screenshot example_blocked_page) |}.
Proof.
  apply (api_fetch_blocked_page example_blocked_env
           (Some "https://example.com/") "https://example.com/"
           example_blocked_page 403 {[ "server" := "nginx" ]}).
  - vm_compute. reflexivity.
  - discriminate.
  - reflexivity.
  - reflexivity.
  - left. reflexivity.
Defined.

(** X17: a page is handed out only when the classifier clears it: the
    body with the HTML comes under the status 200, the classifier
    answers false on the text sample, status and headers it carries, and
    the text sample is at most 10000 characters long. *)
Theorem api_fetch_page_cleared (E : Env) (q : option string)
    (st hd : JsVal) (content sample : string) :
  body (route_api_fetch E q) = JsonPage st hd content sample →
  code (route_api_fetch E q) = 200 ∧
  isVerificationText (JStr sample) st hd = Returned false ∧
  Z.of_nat (String.length sample) ≤ 10000.
Proof.
  destruct (route_api_fetch_cases E q) as [[-> Hn] | (target & Hn & Ht)];
    [discriminate|].
  rewrite (route_api_fetch_valid E q target Hn Ht).
  destruct (fetchWithPlaywright _ _) as [r|err] eqn:Hf; [|discriminate].
  apply fetchWithPlaywright_inv in Hf as (page & b & _ & Hb & ->).
  cbn [verification_required status headers html textSample screenshot].
  destruct b; cbn [body code]; [discriminate|].
  intros [= <- <- <- <-]. split; [reflexivity|]. split; [exact Hb|].
  unfold slice0.
  pose proof (substring_0_length (page_bodyText page) (Z.to_nat 10000)). lia.
Qed.

Lemma api_fetch_page_cleared_witness :
  code (route_api_fetch example_env (Some "https://example.com/")) = 200 ∧
  isVerificationText (JStr "Welcome to our site") (JNum 200)
    (of_headers {[ "server" := "nginx" ]}) = Returned false ∧
  Z.of_nat (String.length "Welcome to our site") ≤ 10000.
Proof.
  apply (api_fetch_page_cleared example_env (Some "https://example.com/")
           (JNum 200) (of_headers {[ "server" := "nginx" ]})
           "<html><body>Welcome to our site</body></html>"
           "Welcome to our site").
  vm_compute. reflexivity.
Defined.

Lemma route_root_codes (E : Env) (q : option string) :
  code (route_root E q) = 200 ∨
  (code (route_root E q) = 500 ∧
   ∃ raw err, q = Some raw ∧ raw ≠ "" ∧ render E raw = Thrown err ∧
              body (route_root E q) = SendText err).
Proof.
  unfold route_root. destruct q as [[|c raw]|]; cbn; [tauto| |tauto].
  destruct (render E (String c raw)) as [page|err] eqn:Hr; cbn; [tauto|].
  right. split; [reflexivity|]. exists (String c raw), err.
  repeat split; [discriminate|exact Hr].
Qed.

(** X18: the route [/] of the CommonJS variant never answers 400, not
    even without a url: it answers 500 exactly when the url is not empty
    and the browser throws, and 200 otherwise. *)
Theorem root_never_400 (E : Env) (q : option string) :
  code (route_root E q) ≠ 400 ∧
  (code (route_root E q) = 500 ↔
   ∃ raw err, q = Some raw ∧ raw ≠ "" ∧ render E raw = Thrown err) ∧
  (code (route_root E q) ≠ 500 → code (route_root E q) = 200).
Proof.
  destruct (route_root_codes E q) as [H200 | (H500 & raw & err & Hq & Hraw & Hr & _)].
  - rewrite H200. split; [discriminate|]. split; [|reflexivity].
    split; [discriminate|]. intros (raw & err & -> & Hraw & Hr).
    unfold route_root in H200. destruct raw; [congruence|].
    cbn in H200. rewrite Hr in H200. discriminate.
  - rewrite H500. split; [discriminate|]. split; [|congruence].
    split; [eauto|reflexivity].
Qed.


(** X20: the browser is asked for http and https targets only: when the
    route [/api/fetch.js] does not answer 400, the url parsed to a URL
    whose protocol is [http:] or [https:], and the target is its
    href. *)
Theorem api_fetch_only_http (E : Env) (q : option string) :
  code (route_api_fetch E q) ≠ 400 →
  ∃ u, parseURL E (ToString q) = Some u ∧
       (protocol u = "http:" ∨ protocol u = "https:") ∧
       normalizeTarget (parseURL E) (ToString q) = Some (href u) ∧
       href u ≠ "".
Proof.
  intros Hcode.
  destruct (route_api_fetch_cases E q) as [[Hr _] | (target & Hn & Ht)].
  - rewrite Hr in Hcode. cbn in Hcode. congruence.
  - unfold normalizeTarget in *.
    destruct (parseURL E (ToString q)) as [u|]; [|discriminate].
    exists u. split; [reflexivity|].
    destruct (String.eqb (protocol u) "http:") eqn:Hhttp.
    + apply String.eqb_eq in Hhttp. cbn in Hn. injection Hn as <-. auto.
    + destruct (String.eqb (protocol u) "https:") eqn:Hhttps; [|discriminate].
      apply String.eqb_eq in Hhttps. cbn in Hn. injection Hn as <-. auto.
Qed.

Lemma api_fetch_only_http_witness :
  ∃ u, parseURL example_env (ToString (Some "https://example.com/")) = Some u ∧
       (protocol u = "http:" ∨ protocol u = "https:") ∧
       normalizeTarget (parseURL example_env)
         (ToString (Some "https://example.com/")) = Some (href u) ∧
       href u ≠ "".
Proof.
  apply (api_fetch_only_http example_env (Some "https://example.com/")).
  vm_compute. discriminate.
Defined.
